(** * Marigold normals server (src/backend/marigold_server.py)

    A shallow embedding of the request handler [marigold_normals], of its
    helpers [_fetch_image_from_url] and [_load_pipeline], and of the numpy
    post-processing of the raw prediction.

    Numbers: the prediction's floating-point values are modelled as exact
    rationals [Q] extended with a [NaN] value ([f64]); NaN propagates through
    arithmetic and compares false, as in IEEE/numpy. *)

From Stdlib Require Import String Ascii List ZArith QArith Qround Bool Lia Lqa.
Import ListNotations.
Open Scope Z_scope.
Open Scope string_scope.

(** ** Prediction values and numpy element operations *)

Inductive f64 : Type :=
| Num (q : Q)
| NaN.

Definition is_nan (x : f64) : bool :=
  match x with NaN => true | Num _ => false end.

(** [a - b] *)
Definition fsub (a b : f64) : f64 :=
  match a, b with Num x, Num y => Num (x - y)%Q | _, _ => NaN end.

(** [a / b]; the handler only divides by a span greater than 0.1. *)
Definition fdiv (a b : f64) : f64 :=
  match a, b with Num x, Num y => Num (x / y)%Q | _, _ => NaN end.

(** [a * b] *)
Definition fmul (a b : f64) : f64 :=
  match a, b with Num x, Num y => Num (x * y)%Q | _, _ => NaN end.

(** [a > b]: false as soon as one side is NaN. *)
Definition fgt (a b : f64) : bool :=
  match a, b with Num x, Num y => negb (Qle_bool x y) | _, _ => false end.

(** Binary [np.minimum] / [np.maximum]: NaN propagates. *)
Definition fmin (a b : f64) : f64 :=
  match a, b with Num x, Num y => Num (if Qle_bool x y then x else y) | _, _ => NaN end.

Definition fmax (a b : f64) : f64 :=
  match a, b with Num x, Num y => Num (if Qle_bool y x then x else y) | _, _ => NaN end.

(** [np.clip(v, 0.0, 1.0)], i.e. [minimum(maximum(v, 0.0), 1.0)]. *)
Definition fclip01 (v : f64) : f64 := fmin (fmax v (Num 0)) (Num 1).

(** [np.nan_to_num(x, nan=0.0)] on one element. *)
Definition nan_to_num (x : f64) : f64 :=
  match x with NaN => Num 0 | Num q => Num q end.

(** Truncation toward zero of a rational. *)
Definition qtrunc (q : Q) : Z := Z.quot (Qnum q) (Zpos (Qden q)).

(** [.astype(np.uint8)] on one element: truncation toward zero, kept in
    8 bits.  A NaN has no defined conversion; numpy on x86 yields 0. *)
Definition to_uint8 (x : f64) : Z :=
  match x with Num q => qtrunc q mod 256 | NaN => 0 end.

(** ** Three-dimensional arrays as nested lists *)

Definition Arr3 (A : Type) : Type := list (list (list A)).

Definition map3 {A B : Type} (f : A -> B) (a : Arr3 A) : Arr3 B :=
  map (map (map f)) a.

Definition flatten3 {A : Type} (a : Arr3 A) : list A :=
  concat (concat a).

(** Swap the first two axes of a rectangular matrix: row [j] of the result
    collects the [j]-th entry of every row; the width is the first row's. *)
Definition transpose2 {A : Type} (d : A) (m : list (list A)) : list (list A) :=
  map (fun j => map (fun row => nth j row d) m) (seq 0 (length (hd [] m))).

(** [np.transpose(pred, (1, 2, 0))]: [new[i][j][k] = old[k][i][j]]. *)
Definition transpose_120 (a : Arr3 f64) : Arr3 f64 :=
  map (transpose2 NaN) (transpose2 [] a).

(** [pred.ndim == 3 and pred.shape[0] == 3] (a nested list is 3-D). *)
Definition axis_fix (pred : Arr3 f64) : Arr3 f64 :=
  if Nat.eqb (length pred) 3 then transpose_120 pred else pred.

(** [if np.isnan(pred).any(): pred = np.nan_to_num(pred, nan=0.0)] *)
Definition sanitize (pred : Arr3 f64) : Arr3 f64 :=
  if existsb is_nan (flatten3 pred) then map3 nan_to_num pred else pred.

(** [pred.min()] and [pred.max()]: [None] models the [ValueError] numpy
    raises on an empty array. *)
Definition arr_min (pred : Arr3 f64) : option f64 :=
  match flatten3 pred with
  | [] => None
  | x :: xs => Some (fold_left fmin xs x)
  end.

Definition arr_max (pred : Arr3 f64) : option f64 :=
  match flatten3 pred with
  | [] => None
  | x :: xs => Some (fold_left fmax xs x)
  end.

(** [np.ones_like(pred) * np.array([0.5, 0.5, 1.0])] on one pixel (the
    last axis): broadcasting accepts a last axis of length 3 or 1. *)
Definition flat_pixel (px : list f64) : option (list f64) :=
  if orb (Nat.eqb (length px) 3) (Nat.eqb (length px) 1)
  then Some [Num (1#2); Num (1#2); Num 1]
  else None.

Fixpoint option_map_list {A B : Type} (f : A -> option B) (l : list A)
  : option (list B) :=
  match l with
  | [] => Some []
  | x :: xs =>
      match f x, option_map_list f xs with
      | Some y, Some ys => Some (y :: ys)
      | _, _ => None
      end
  end.

Definition flat_normal_map (pred : Arr3 f64) : option (Arr3 f64) :=
  option_map_list (option_map_list flat_pixel) pred.

(** Lines 148-175 of [marigold_normals], from [pred = result.prediction[0]]
    to [pred = (pred * 255).astype(np.uint8)]; [None] is a numpy exception
    (empty array, or a last axis that does not broadcast). *)
Definition normalize_prediction (pred0 : Arr3 f64) : option (Arr3 Z) :=
  let pred1 := axis_fix pred0 in
  let pred2 := sanitize pred1 in
  match arr_min pred2, arr_max pred2 with
  | Some p_min, Some p_max =>
      let range_span := fsub p_max p_min in
      let pred3 :=
        if fgt range_span (Num (1#10))
        then Some (map3 (fun v => fdiv (fsub v p_min) range_span) pred2)
        else flat_normal_map pred2 in
      match pred3 with
      | Some pred4 =>
          let pred5 := map3 fclip01 pred4 in
          Some (map3 (fun v => to_uint8 (fmul v (Num 255))) pred5)
      | None => None
      end
  | _, _ => None
  end.

Example normalize_ramp :
  normalize_prediction [[[Num (-1); Num 0; Num 0]; [Num 1; Num 0; Num 0]]]
  = Some [[[0; 127; 127]; [255; 127; 127]]].
Proof. vm_compute. reflexivity. Qed.

(** ** Request model ([class MarigoldRequest(BaseModel)]) *)

(** How the JSON body gives the field [num_inference_steps]. *)
Inductive json_field : Type :=
| Omitted
| JNull
| JInt (z : Z).

(** pydantic: [num_inference_steps: Optional[int] = 30]. *)
Definition num_inference_steps_of (f : json_field) : option Z :=
  match f with
  | Omitted => Some 30
  | JNull => None
  | JInt z => Some z
  end.

Record MarigoldRequest : Type := {
  image_url : string;
  num_inference_steps : option Z;
  seed : option Z
}.

Record MarigoldResponse : Type := { normal_map_base64 : string }.

(** Python's [x or d] on an [Optional[int]]: [None] and [0] are falsy. *)
Definition py_or (x : option Z) (d : Z) : Z :=
  match x with
  | Some z => if Z.eqb z 0 then d else z
  | None => d
  end.

(** [steps = max(req.num_inference_steps or 20, 20)] *)
Definition effective_steps (n : option Z) : Z := Z.max (py_or n 20) 20.

(** ** External collaborators *)

Inductive Device : Type := Cuda | Cpu.
Inductive Dtype : Type := Float16 | Float32.

Record Pipe : Type := {
  pipe_model : string;
  pipe_dtype : Dtype;
  pipe_device : Device
}.

(** A decoded RGB image ([PIL.Image]) as an H x W x 3 raster. *)
Definition Img : Type := Arr3 Z.

Record HttpResp : Type := { status_code : Z; content : string }.

(** The result object of [pipe(...)]: [prediction] is [Some] when
    [hasattr(result, "prediction")]; [images] is [getattr(result, "images", None)]. *)
Record PipeResult : Type := {
  prediction : option (list (Arr3 f64));
  images : option (list Img)
}.

(** The libraries the handler calls; [inl msg] is an exception whose
    [str(e)] is [msg]. *)
Record Env : Type := {
  cuda_is_available : bool;
  from_pretrained : string -> Dtype -> string + Pipe;
  pipe_to : Pipe -> Device -> string + Pipe;
  b64decode : string -> string + string;
  requests_get : string -> Z -> string + HttpResp;
  image_open_rgb : string -> string + Img;
  run_pipe : Pipe -> Img -> Z -> option Z -> string + PipeResult;
  png_b64encode : Img -> string
}.

(** ** Exceptions, process state and the handler monad *)

Inductive exn : Type :=
| HTTPException (code : Z) (detail : string)
| PyException (msg : string).

Definition exn_str (e : exn) : string :=
  match e with HTTPException _ d => d | PyException m => m end.

(** Calls to the collaborators that matter to the claims, in order. *)
Inductive event : Type :=
| EvLoadPipeline
| EvB64Decode (payload : string)
| EvRequestsGet (url : string) (timeout : Z)
| EvImageOpen
| EvInference (steps : Z) (seed : option Z).

(** Module state: the cached singleton [_PIPELINE], and the call trace. *)
Record St : Type := {
  PIPELINE : option Pipe;
  trace : list event
}.

Definition M (A : Type) : Type := St -> (exn + A) * St.

Definition ret {A : Type} (x : A) : M A := fun s => (inr x, s).

Definition bind {A B : Type} (m : M A) (k : A -> M B) : M B :=
  fun s => match m s with
           | (inl e, s') => (inl e, s')
           | (inr x, s') => k x s'
           end.

Notation "x <- m ;; k" := (bind m (fun x => k))
  (at level 61, m at next level, right associativity).
Notation "m ;;; k" := (bind m (fun _ => k))
  (at level 61, right associativity).

Definition raise {A : Type} (e : exn) : M A := fun s => (inl e, s).

(** [try: m except Exception as e: h(e)] *)
Definition try_except {A : Type} (m : M A) (h : exn -> M A) : M A :=
  fun s => match m s with
           | (inl e, s') => h e s'
           | r => r
           end.

(** A library call that may raise. *)
Definition lift {A : Type} (r : string + A) : M A :=
  match r with inl msg => raise (PyException msg) | inr x => ret x end.

Definition log (ev : event) : M unit :=
  fun s => (inr tt, {| PIPELINE := PIPELINE s; trace := app (trace s) [ev] |}).

Definition get_cache : M (option Pipe) := fun s => (inr (PIPELINE s), s).

Definition set_cache (p : Pipe) : M unit :=
  fun s => (inr tt, {| PIPELINE := Some p; trace := trace s |}).

(** ** [_fetch_image_from_url] *)

(** [s.split(",", 1)] unpacked into two names: [None] when there is no
    comma (the unpacking raises [ValueError]). *)
Fixpoint split_comma (s : string) : option (string * string) :=
  match s with
  | EmptyString => None
  | String c rest =>
      if Ascii.eqb c ","%char then Some (EmptyString, rest)
      else match split_comma rest with
           | Some (a, b) => Some (String c a, b)
           | None => None
           end
  end.

(** [resp.raise_for_status()] *)
Definition raise_for_status (r : HttpResp) : M unit :=
  if andb (400 <=? status_code r)%Z (status_code r <? 600)%Z
  then raise (PyException "HTTP error status")
  else ret tt.

Definition fetch_image_from_url (env : Env) (url : string) : M Img :=
  try_except
    (if String.prefix "data:image" url then
       match split_comma url with
       | None => raise (PyException "not enough values to unpack")
       | Some (_, encoded) =>
           log (EvB64Decode encoded) ;;;
           image_data <- lift (b64decode env encoded) ;;
           log EvImageOpen ;;;
           lift (image_open_rgb env image_data)
       end
     else
       log (EvRequestsGet url 15) ;;;
       resp <- lift (requests_get env url 15) ;;
       raise_for_status resp ;;;
       log EvImageOpen ;;;
       lift (image_open_rgb env (content resp)))
    (fun e => raise (HTTPException 400 ("Failed to load/parse image: " ++ exn_str e))).

(** ** [_load_pipeline] *)

Definition load_pipeline (env : Env) : M Pipe :=
  log EvLoadPipeline ;;;
  cached <- get_cache ;;
  match cached with
  | Some p => ret p
  | None =>
      try_except
        (let device := if cuda_is_available env then Cuda else Cpu in
         pipe <- lift (from_pretrained env "prs-eth/marigold-normals-v1-1"
                         (match device with Cuda => Float16 | Cpu => Float32 end)) ;;
         pipe' <- lift (pipe_to env pipe device) ;;
         set_cache pipe' ;;;
         ret pipe')
        (fun e => raise e)
  end.

(** ** [marigold_normals] *)

(** Lines 144-181: choose the output image from the pipeline's result. *)
(** [Image.fromarray(pred)] on an H x W x C [uint8] array: Pillow's type
    map knows the channel counts 2 (LA), 3 (RGB) and 4 (RGBA) and raises
    [TypeError] for any other [C]. *)
Definition image_fromarray (a : Arr3 Z) : option Img :=
  let c := length (hd [] (hd [] a)) in
  if orb (Nat.eqb c 2) (orb (Nat.eqb c 3) (Nat.eqb c 4)) then Some a else None.

Definition select_output (result : PipeResult) : M Img :=
  normal_img <-
    (match prediction result with
     | Some preds =>
         match preds with
         | [] => raise (PyException "list index out of range")
         | pred :: _ =>
             match normalize_prediction pred with
             | Some a =>
                 match image_fromarray a with
                 | Some i => ret (Some i)
                 | None => raise (PyException "Cannot handle this data type")
                 end
             | None => raise (PyException "numpy error")
             end
         end
     | None =>
         match images result with
         | Some (i :: _) => ret (Some i)
         | _ => ret None
         end
     end) ;;
  match normal_img with
  | None => raise (HTTPException 500 "Model returned no images or prediction")
  | Some i => ret i
  end.

Definition marigold_normals (env : Env) (req : MarigoldRequest) : M MarigoldResponse :=
  img <- fetch_image_from_url env (image_url req) ;;
  pipe <- try_except (load_pipeline env)
            (fun e => raise (HTTPException 500 ("Failed to load model: " ++ exn_str e))) ;;
  result <- try_except
              (let steps := effective_steps (num_inference_steps req) in
               log (EvInference steps (seed req)) ;;;
               lift (run_pipe env pipe img steps (seed req)))
              (fun e => raise (HTTPException 500 ("Model inference failed: " ++ exn_str e))) ;;
  normal_img <- select_output result ;;
  let b64 := png_b64encode env normal_img in
  ret {| normal_map_base64 := "data:image/png;base64," ++ b64 |}.

(** What the client receives from FastAPI. *)
Inductive http_reply : Type :=
| Ok200 (body : MarigoldResponse)
| HttpError (code : Z) (detail : string).

Definition serve (env : Env) (req : MarigoldRequest) (s : St) : http_reply * St :=
  match marigold_normals env req s with
  | (inr r, s') => (Ok200 r, s')
  | (inl (HTTPException c d), s') => (HttpError c d, s')
  | (inl (PyException _), s') => (HttpError 500 "Internal Server Error", s')
  end.

(** ** Concrete collaborators, for evaluation *)

Definition empty_state : St := {| PIPELINE := None; trace := [] |}.

Definition black_pixel : Img := [[[0; 0; 0]]].

(** A process with no accelerator whose model download fails and whose
    network rejects every address. *)
Definition offline_env : Env := {|
  cuda_is_available := false;
  from_pretrained := fun _ _ => inl "model unavailable";
  pipe_to := fun p _ => inr p;
  b64decode := fun s => inr s;
  requests_get := fun _ _ => inl "Invalid URL";
  image_open_rgb := fun _ => inr black_pixel;
  run_pipe := fun _ _ _ _ => inr {| prediction := None; images := None |};
  png_b64encode := fun _ => "AAAA"
|}.

Definition with_requests_get (env : Env) (g : string -> Z -> string + HttpResp) : Env := {|
  cuda_is_available := cuda_is_available env;
  from_pretrained := from_pretrained env;
  pipe_to := pipe_to env;
  b64decode := b64decode env;
  requests_get := g;
  image_open_rgb := image_open_rgb env;
  run_pipe := run_pipe env;
  png_b64encode := png_b64encode env
|}.

Example serve_offline_bad_url :
  serve offline_env {| image_url := "not-a-url"; num_inference_steps := Some 30; seed := None |}
        empty_state
  = (HttpError 400 "Failed to load/parse image: Invalid URL",
     {| PIPELINE := None; trace := [EvRequestsGet "not-a-url" 15] |}).
Proof. reflexivity. Qed.

Example serve_offline_data_uri :
  serve offline_env {| image_url := "data:image/png;base64,xyz"; num_inference_steps := Some 30; seed := None |}
        empty_state
  = (HttpError 500 "Failed to load model: model unavailable",
     {| PIPELINE := None; trace := [EvB64Decode "xyz"; EvImageOpen; EvLoadPipeline] |}).
Proof. reflexivity. Qed.

(** ** Array layout *)

(** [a[i][j][k]] *)
Definition get3 (a : Arr3 f64) (i j k : nat) : f64 :=
  nth k (nth j (nth i a []) []) NaN.

(** [a.shape == (d0, d1, d2)] *)
Definition shape3 {A : Type} (a : Arr3 A) (d0 d1 d2 : nat) : Prop :=
  length a = d0 /\
  forall i, (i < d0)%nat ->
    length (nth i a []) = d1 /\
    forall j, (j < d1)%nat -> length (nth j (nth i a []) []) = d2.

(** [cf] is the channel-first ([3, H, W]) layout of the channel-last
    ([H, W, 3]) array [cl]: the same values, [cl[h][w][c] = cf[c][h][w]]. *)
Definition channel_first_of (cf cl : Arr3 f64) (H W : nat) : Prop :=
  shape3 cf 3 H W /\ shape3 cl H W 3 /\
  forall h w c, (h < H)%nat -> (w < W)%nat -> (c < 3)%nat ->
    get3 cl h w c = get3 cf c h w.

(** ** Proof tools *)

Ltac unfold_monad :=
  unfold bind, ret, raise, try_except, lift, log, get_cache, set_cache in *.

(** Events that [_fetch_image_from_url] may record. *)
Definition fetch_event (ev : event) : Prop :=
  match ev with
  | EvB64Decode _ | EvRequestsGet _ _ | EvImageOpen => True
  | _ => False
  end.

Lemma fetch_image_frame : forall env url s,
  PIPELINE (snd (fetch_image_from_url env url s)) = PIPELINE s /\
  exists evs, trace (snd (fetch_image_from_url env url s)) = (trace s ++ evs)%list /\
              Forall fetch_event evs.
Proof.
  intros env url [c t]. unfold fetch_image_from_url, raise_for_status.
  unfold_monad.
  destruct (String.prefix "data:image" url).
  - destruct (split_comma url) as [[pre payload] |].
    + destruct (b64decode env payload) as [m | data]; simpl.
      * split; [reflexivity|]. exists [EvB64Decode payload].
        split; [reflexivity | repeat constructor].
      * destruct (image_open_rgb env data); simpl;
          (split; [reflexivity|]; exists [EvB64Decode payload; EvImageOpen];
           split; [rewrite <- app_assoc; reflexivity | repeat constructor]).
    + simpl. split; [reflexivity|]. exists []. split; [symmetry; apply app_nil_r | constructor].
  - destruct (requests_get env url 15) as [m | resp]; simpl.
    + split; [reflexivity|]. exists [EvRequestsGet url 15].
      split; [reflexivity | repeat constructor].
    + destruct (andb (400 <=? status_code resp)%Z (status_code resp <? 600)%Z); simpl.
      * split; [reflexivity|]. exists [EvRequestsGet url 15].
        split; [reflexivity | repeat constructor].
      * destruct (image_open_rgb env (content resp)); simpl;
          (split; [reflexivity|]; exists [EvRequestsGet url 15; EvImageOpen];
           split; [rewrite <- app_assoc; reflexivity | repeat constructor]).
Qed.

Lemma fetch_image_error : forall env url s e s',
  fetch_image_from_url env url s = (inl e, s') ->
  exists msg, e = HTTPException 400 ("Failed to load/parse image: " ++ msg).
Proof.
  intros env url s e s' H. unfold fetch_image_from_url in H.
  unfold try_except in H at 1.
  destruct (_ s) as [[e0 | x] s0]; unfold raise in H; inversion H; subst.
  eexists; reflexivity.
Qed.

Lemma load_pipeline_cached : forall env p s,
  PIPELINE s = Some p ->
  load_pipeline env s = (inr p, {| PIPELINE := PIPELINE s; trace := (trace s ++ [EvLoadPipeline])%list |}).
Proof.
  intros env p [c t] Hc. simpl in Hc; subst c.
  unfold load_pipeline. unfold_monad. reflexivity.
Qed.

Lemma load_pipeline_error_keeps_cache : forall env s e s',
  load_pipeline env s = (inl e, s') ->
  PIPELINE s = None /\ PIPELINE s' = None.
Proof.
  intros env [c t] e s' H. unfold load_pipeline in H. unfold_monad. simpl in *.
  destruct c as [p |]; [discriminate|].
  split; [reflexivity|].
  destruct (from_pretrained env _ _) as [m | pipe]; simpl in H.
  - inversion H; reflexivity.
  - destruct (pipe_to env pipe _); inversion H; reflexivity.
Qed.

(** * Claims *)

(** ** Step count *)

(** C5: the step count given to the pipeline is [max(requested, 20)]
    for a requested integer, and the declared default 30 when the field is
    omitted: 5 gives 20 and 50 gives 50. *)
Theorem effective_steps_floor_20 :
  (forall n, effective_steps (num_inference_steps_of (JInt n)) = Z.max n 20) /\
  effective_steps (num_inference_steps_of Omitted) = Z.max 30 20 /\
  effective_steps (num_inference_steps_of (JInt 5)) = 20 /\
  effective_steps (num_inference_steps_of (JInt 50)) = 50.
Proof.
  split; [| repeat split; reflexivity].
  intros n. unfold effective_steps, py_or; simpl.
  destruct (Z.eqb_spec n 0); [subst; reflexivity | reflexivity].
Qed.

(** C10: an explicit [null] or [0] for [num_inference_steps] gives 20
    steps, not the field default 30, which applies only when the field is
    omitted. *)
Theorem null_or_zero_steps_give_20 :
  effective_steps (num_inference_steps_of JNull) = 20 /\
  effective_steps (num_inference_steps_of (JInt 0)) = 20 /\
  effective_steps (num_inference_steps_of Omitted) = 30.
Proof. repeat split; reflexivity. Qed.

(** ** Image acquisition *)

(** C8: a reference starting with [data:image] is decoded from the
    payload after its first comma, and the network is never consulted
    (the result does not depend on [requests.get] and no request is
    recorded); any other reference is first fetched with
    [requests.get(url, timeout=15)]. *)
Theorem fetch_data_uri_offline_else_get_timeout_15 : forall env url s,
  if String.prefix "data:image" url then
    (forall g, fetch_image_from_url (with_requests_get env g) url s
               = fetch_image_from_url env url s) /\
    exists evs,
      trace (snd (fetch_image_from_url env url s)) = (trace s ++ evs)%list /\
      Forall (fun ev => match ev with
                        | EvB64Decode p => exists pre, split_comma url = Some (pre, p)
                        | EvImageOpen => True
                        | _ => False
                        end) evs
  else
    exists evs,
      trace (snd (fetch_image_from_url env url s))
      = (trace s ++ EvRequestsGet url 15 :: evs)%list.
Proof.
  intros env url [c t]. unfold fetch_image_from_url, raise_for_status.
  destruct (String.prefix "data:image" url) eqn:Hp.
  - split.
    + intros g. reflexivity.
    + unfold_monad. destruct (split_comma url) as [[pre payload] |] eqn:Hs.
      * destruct (b64decode env payload) as [m | data]; simpl.
        -- exists [EvB64Decode payload]. split; [reflexivity|].
           repeat constructor. eauto.
        -- destruct (image_open_rgb env data); simpl;
             (exists [EvB64Decode payload; EvImageOpen];
              split; [rewrite <- app_assoc; reflexivity | repeat constructor; eauto]).
      * simpl. exists []. split; [symmetry; apply app_nil_r | constructor].
  - unfold_monad. destruct (requests_get env url 15) as [m | resp]; simpl.
    + exists []. reflexivity.
    + destruct (andb (400 <=? status_code resp)%Z (status_code resp <? 600)%Z); simpl.
      * exists []. reflexivity.
      * destruct (image_open_rgb env (content resp)); simpl;
          (exists [EvImageOpen]; rewrite <- app_assoc; reflexivity).
Qed.

(** C6: when the image reference cannot be fetched or decoded, the client
    gets HTTP 400 with a [Failed to load/parse image: ...] detail, and
    neither the pipeline accessor nor inference was called. *)
Theorem fetch_failure_400_without_pipeline : forall env req s e s1,
  fetch_image_from_url env (image_url req) s = (inl e, s1) ->
  exists msg evs,
    serve env req s = (HttpError 400 ("Failed to load/parse image: " ++ msg), s1) /\
    trace s1 = (trace s ++ evs)%list /\
    ~ In EvLoadPipeline evs /\
    (forall n sd, ~ In (EvInference n sd) evs) /\
    PIPELINE s1 = PIPELINE s.
Proof.
  intros env req s e s1 H.
  destruct (fetch_image_error _ _ _ _ _ H) as [msg ->].
  destruct (fetch_image_frame env (image_url req) s) as [Hc [evs [Ht Hf]]].
  rewrite H in Hc, Ht. simpl in Hc, Ht.
  exists msg, evs. split; [| split; [exact Ht | split; [| split]]].
  - unfold serve, marigold_normals. unfold bind at 1. rewrite H. reflexivity.
  - intros Hin. rewrite Forall_forall in Hf. exact (Hf _ Hin).
  - intros n sd Hin. rewrite Forall_forall in Hf. exact (Hf _ Hin).
  - exact Hc.
Qed.

Lemma fetch_failure_400_without_pipeline_witness :
  fetch_image_from_url offline_env "not-a-url" empty_state
    = (inl (HTTPException 400 "Failed to load/parse image: Invalid URL"),
       {| PIPELINE := None; trace := [EvRequestsGet "not-a-url" 15] |}) /\
  exists msg evs,
    serve offline_env {| image_url := "not-a-url"; num_inference_steps := Some 30; seed := None |}
          empty_state
    = (HttpError 400 ("Failed to load/parse image: " ++ msg),
       {| PIPELINE := None; trace := [EvRequestsGet "not-a-url" 15] |}) /\
    trace {| PIPELINE := None; trace := [EvRequestsGet "not-a-url" 15] |}
      = (trace empty_state ++ evs)%list /\
    ~ In EvLoadPipeline evs /\
    (forall n sd, ~ In (EvInference n sd) evs) /\
    PIPELINE {| PIPELINE := None; trace := [EvRequestsGet "not-a-url" 15] |}
      = PIPELINE empty_state.
Proof.
  split; [reflexivity|].
  apply (fetch_failure_400_without_pipeline offline_env
           {| image_url := "not-a-url"; num_inference_steps := Some 30; seed := None |}
           empty_state (HTTPException 400 "Failed to load/parse image: Invalid URL")).
  reflexivity.
Defined.

(** ** Pipeline initialisation *)

(** C7: when [_load_pipeline] raises, the request gets HTTP 500 with a
    [Failed to load model: ...] detail and the cached singleton
    [_PIPELINE] is still unset afterwards. *)
Theorem load_failure_500_cache_unset : forall env req s img s1 e s2,
  fetch_image_from_url env (image_url req) s = (inr img, s1) ->
  load_pipeline env s1 = (inl e, s2) ->
  serve env req s = (HttpError 500 ("Failed to load model: " ++ exn_str e), s2) /\
  PIPELINE s = None /\ PIPELINE s2 = None.
Proof.
  intros env req s img s1 e s2 Hf Hl.
  destruct (load_pipeline_error_keeps_cache _ _ _ _ Hl) as [Hc1 Hc2].
  destruct (fetch_image_frame env (image_url req) s) as [Hc _].
  rewrite Hf in Hc. simpl in Hc.
  split; [| split; [congruence | exact Hc2]].
  unfold serve, marigold_normals. unfold bind at 1. rewrite Hf.
  unfold bind at 1. unfold try_except at 1. rewrite Hl. reflexivity.
Qed.

Definition data_uri_request : MarigoldRequest :=
  {| image_url := "data:image/png;base64,xyz"; num_inference_steps := Some 30; seed := None |}.

Lemma load_failure_500_cache_unset_witness :
  fetch_image_from_url offline_env (image_url data_uri_request) empty_state
    = (inr black_pixel, {| PIPELINE := None; trace := [EvB64Decode "xyz"; EvImageOpen] |}) /\
  load_pipeline offline_env {| PIPELINE := None; trace := [EvB64Decode "xyz"; EvImageOpen] |}
    = (inl (PyException "model unavailable"),
       {| PIPELINE := None; trace := [EvB64Decode "xyz"; EvImageOpen; EvLoadPipeline] |}) /\
  serve offline_env data_uri_request empty_state
    = (HttpError 500 ("Failed to load model: " ++ exn_str (PyException "model unavailable")),
       {| PIPELINE := None; trace := [EvB64Decode "xyz"; EvImageOpen; EvLoadPipeline] |}) /\
  PIPELINE empty_state = None /\
  PIPELINE {| PIPELINE := None; trace := [EvB64Decode "xyz"; EvImageOpen; EvLoadPipeline] |} = None.
Proof.
  split; [reflexivity|]. split; [reflexivity|].
  apply (load_failure_500_cache_unset offline_env data_uri_request empty_state black_pixel
           {| PIPELINE := None; trace := [EvB64Decode "xyz"; EvImageOpen] |}
           (PyException "model unavailable")); reflexivity.
Defined.

(** ** Choice of the output image *)

(** C9: a result with a raw prediction has its first element normalised
    and the [uint8] array passed to [Image.fromarray] (which refuses a
    channel count other than 2, 3 or 4); otherwise a non-empty [images] list gives its first image unchanged;
    with neither, the handler raises HTTP 500
    [Model returned no images or prediction]. *)
Theorem select_output_cases : forall r s,
  match prediction r with
  | Some (pred :: _) =>
      select_output r s =
        match normalize_prediction pred with
        | Some a =>
            match image_fromarray a with
            | Some i => (inr i, s)
            | None => (inl (PyException "Cannot handle this data type"), s)
            end
        | None => (inl (PyException "numpy error"), s)
        end
  | Some [] => select_output r s = (inl (PyException "list index out of range"), s)
  | None =>
      match images r with
      | Some (i :: _) => select_output r s = (inr i, s)
      | _ => select_output r s =
               (inl (HTTPException 500 "Model returned no images or prediction"), s)
      end
  end.
Proof.
  intros [[[| pred preds] |] imgs] s; unfold select_output; unfold_monad; simpl.
  - reflexivity.
  - destruct (normalize_prediction pred) as [a |]; [destruct (image_fromarray a)|];
      reflexivity.
  - destruct imgs as [[| i is] |]; reflexivity.
Qed.

Example one_channel_prediction_refused :
  select_output {| prediction := Some [[[[Num 0]; [Num 1]]]]; images := None |} empty_state
  = (inl (PyException "Cannot handle this data type"), empty_state).
Proof. vm_compute. reflexivity. Qed.

(** ** Contrast-gated normalisation *)

Definition constant_half : Arr3 f64 :=
  [[[Num (1#2); Num (1#2); Num (1#2)]; [Num (1#2); Num (1#2); Num (1#2)]];
   [[Num (1#2); Num (1#2); Num (1#2)]; [Num (1#2); Num (1#2); Num (1#2)]]].

(** C2 (code defect): a prediction of constant 0.5 falls back to the flat
    normal [(0.5, 0.5, 1.0)], which [* 255] then [astype(np.uint8)]
    truncates to the pixel [(127, 127, 255)], not the [(128, 128, 255)] the
    source's comment names. *)
Theorem flat_fallback_is_127_127_255 :
  normalize_prediction constant_half
  = Some [[[127; 127; 255]; [127; 127; 255]]; [[127; 127; 255]; [127; 127; 255]]].
Proof. vm_compute. reflexivity. Qed.

(** A channel-last array of height 3 ([1]-wide), and the same values in
    channel-first layout. *)
Definition cl_height3 : Arr3 f64 :=
  [[[Num 1; Num 0; Num 0]]; [[Num 0; Num 0; Num 0]]; [[Num 0; Num 0; Num 0]]].

Definition cf_height3 : Arr3 f64 :=
  [[[Num 1]; [Num 0]; [Num 0]]; [[Num 0]; [Num 0]; [Num 0]]; [[Num 0]; [Num 0]; [Num 0]]].

(** C4 fails at height 3: a channel-last array of shape [3, 1, 3] also has
    first axis 3, so it is permuted too, and here the two layouts of the same
    values give different images. *)
Lemma layout_height3_outputs_differ :
  channel_first_of cf_height3 cl_height3 3 1 /\
  normalize_prediction cf_height3 = Some [[[255; 0; 0]]; [[0; 0; 0]]; [[0; 0; 0]]] /\
  normalize_prediction cl_height3 = Some [[[255; 0; 0]; [0; 0; 0]; [0; 0; 0]]] /\
  normalize_prediction cf_height3 <> normalize_prediction cl_height3.
Proof.
  split; [| split; [vm_compute; reflexivity | split; [vm_compute; reflexivity | vm_compute; congruence]]].
  unfold channel_first_of, shape3. split; [| split].
  - split; [reflexivity|]. intros i Hi.
    destruct i as [| [| [| i]]]; try lia;
      (split; [reflexivity | intros j Hj; destruct j as [| [| [| j]]]; try lia; reflexivity]).
  - split; [reflexivity|]. intros i Hi.
    destruct i as [| [| [| i]]]; try lia;
      (split; [reflexivity | intros j Hj; destruct j as [| j]; try lia; reflexivity]).
  - intros h w c Hh Hw Hc.
    destruct h as [| [| [| h]]]; try lia; destruct w as [| w]; try lia;
      destruct c as [| [| [| c]]]; try lia; reflexivity.
Qed.

(** ** Axis correction *)

Lemma nth_map_lt {A B : Type} (f : A -> B) (l : list A) (n : nat) (d : B) (d' : A) :
  (n < length l)%nat -> nth n (map f l) d = f (nth n l d').
Proof.
  intros Hn. rewrite (nth_indep _ d (f d')) by (rewrite length_map; exact Hn).
  apply map_nth.
Qed.

Lemma transpose2_length {A : Type} (d : A) (m : list (list A)) :
  length (transpose2 d m) = length (hd [] m).
Proof. unfold transpose2. rewrite length_map, length_seq. reflexivity. Qed.

Lemma transpose2_nth {A : Type} (d : A) (m : list (list A)) (j : nat) :
  (j < length (hd [] m))%nat ->
  nth j (transpose2 d m) [] = map (fun row => nth j row d) m.
Proof.
  intros Hj. unfold transpose2.
  rewrite (nth_map_lt _ _ _ _ 0%nat) by (rewrite length_seq; exact Hj).
  rewrite seq_nth by exact Hj. reflexivity.
Qed.

Lemma transpose_120_channel_first : forall cf cl H W,
  channel_first_of cf cl H W -> transpose_120 cf = cl.
Proof.
  intros cf cl H W [[Hl0 Hcf] [[Hl1 Hcl] Hv]].
  assert (Hhd : hd [] cf = nth 0 cf []) by (destruct cf; reflexivity).
  destruct (Hcf 0%nat ltac:(lia)) as [HlenH HlenW].
  unfold transpose_120.
  apply nth_ext with (d := []) (d' := []).
  { rewrite length_map, transpose2_length, Hhd, HlenH. lia. }
  intros i Hi.
  rewrite length_map, transpose2_length, Hhd, HlenH in Hi.
  rewrite (nth_map_lt _ _ _ _ []) by (rewrite transpose2_length, Hhd; lia).
  rewrite transpose2_nth by (rewrite Hhd; lia).
  destruct (Hcl i ltac:(lia)) as [HclW HclC].
  apply nth_ext with (d := []) (d' := []).
  { rewrite transpose2_length.
    destruct cf as [| row0 rest]; [simpl in Hl0; lia|]. simpl.
    specialize (HlenW i ltac:(lia)). simpl in HlenW. lia. }
  intros j Hj.
  assert (HjW : (j < W)%nat).
  { rewrite transpose2_length in Hj.
    destruct cf as [| row0 rest]; [simpl in Hl0; lia|]. simpl in Hj.
    specialize (HlenW i ltac:(lia)). simpl in HlenW. lia. }
  rewrite transpose2_nth.
  2:{ destruct cf as [| row0 rest]; [simpl in Hl0; lia|]. simpl.
      specialize (HlenW i ltac:(lia)). simpl in HlenW. lia. }
  apply nth_ext with (d := NaN) (d' := NaN).
  { rewrite !length_map, Hl0. rewrite (HclC j HjW). reflexivity. }
  intros k Hk. rewrite !length_map, Hl0 in Hk.
  rewrite (nth_map_lt _ _ _ _ []) by (rewrite length_map; lia).
  rewrite (nth_map_lt _ _ _ _ []) by lia.
  symmetry. exact (Hv i j k Hi HjW Hk).
Qed.

(** C4 (amended): the channel-first ([3, H, W]) and channel-last
    ([H, W, 3]) layouts of the same values give the same normalised image
    whenever the height [H] is not 3. *)
Theorem layout_equivalence_height_not_3 : forall cf cl H W,
  channel_first_of cf cl H W -> H <> 3%nat ->
  normalize_prediction cf = normalize_prediction cl.
Proof.
  intros cf cl H W Hrel HH.
  assert (Hcf : axis_fix cf = cl).
  { pose proof Hrel as [[Hl0 _] _]. unfold axis_fix. rewrite Hl0. simpl.
    exact (transpose_120_channel_first cf cl H W Hrel). }
  assert (Hcl : axis_fix cl = cl).
  { pose proof Hrel as [_ [[Hl1 _] _]]. unfold axis_fix.
    destruct (Nat.eqb_spec (length cl) 3); [lia | reflexivity]. }
  unfold normalize_prediction. rewrite Hcf, Hcl. reflexivity.
Qed.

Definition cl_2x1 : Arr3 f64 := [[[Num 1; Num 0; Num 0]]; [[Num 0; Num 0; Num 0]]].
Definition cf_2x1 : Arr3 f64 := [[[Num 1]; [Num 0]]; [[Num 0]; [Num 0]]; [[Num 0]; [Num 0]]].

Lemma layout_equivalence_height_not_3_witness :
  channel_first_of cf_2x1 cl_2x1 2 1 /\ 2%nat <> 3%nat /\
  normalize_prediction cf_2x1 = normalize_prediction cl_2x1.
Proof.
  assert (Hrel : channel_first_of cf_2x1 cl_2x1 2 1).
  { unfold channel_first_of, shape3. split; [| split].
    - split; [reflexivity|]. intros i Hi.
      destruct i as [| [| [| i]]]; try lia;
        (split; [reflexivity | intros j Hj; destruct j as [| [| j]]; try lia; reflexivity]).
    - split; [reflexivity|]. intros i Hi.
      destruct i as [| [| i]]; try lia;
        (split; [reflexivity | intros j Hj; destruct j as [| j]; try lia; reflexivity]).
    - intros h w c Hh Hw Hc.
      destruct h as [| [| h]]; try lia; destruct w as [| w]; try lia;
        destruct c as [| [| [| c]]]; try lia; reflexivity. }
  split; [exact Hrel | split; [lia|]].
  apply (layout_equivalence_height_not_3 cf_2x1 cl_2x1 2 1); [exact Hrel | lia].
Defined.

(** ** NaN sanitisation *)

(** The value [np.nan_to_num(x, nan=0.0)] holds, as a rational. *)
Definition nan_to_zero_q (x : f64) : Q :=
  match x with NaN => 0%Q | Num q => q end.

Lemma map3_map3 {A B C : Type} (f : B -> C) (g : A -> B) (a : Arr3 A) :
  map3 f (map3 g a) = map3 (fun x => f (g x)) a.
Proof.
  unfold map3. rewrite map_map. apply map_ext. intros m.
  rewrite map_map. apply map_ext. intros r. apply map_map.
Qed.

Lemma in_flatten3 {A : Type} (a : Arr3 A) m r e :
  In m a -> In r m -> In e r -> In e (flatten3 a).
Proof.
  intros Hm Hr He. unfold flatten3. apply in_concat. exists r. split; [|exact He].
  apply in_concat. exists m. split; assumption.
Qed.

Lemma map3_id_in {A : Type} (f : A -> A) (a : Arr3 A) :
  (forall e, In e (flatten3 a) -> f e = e) -> map3 f a = a.
Proof.
  intros Hf. unfold map3. rewrite <- (map_id a) at 2. apply map_ext_in. intros m Hm.
  rewrite <- (map_id m) at 2. apply map_ext_in. intros r Hr.
  rewrite <- (map_id r) at 2. apply map_ext_in. intros e He.
  apply Hf. exact (in_flatten3 a m r e Hm Hr He).
Qed.

Lemma sanitize_nan_to_num (pred : Arr3 f64) :
  sanitize pred = map3 nan_to_num pred.
Proof.
  unfold sanitize. destruct (existsb is_nan (flatten3 pred)) eqn:Hn; [reflexivity|].
  symmetry. apply map3_id_in. intros e He.
  destruct e as [q |]; [reflexivity|].
  assert (Ht : existsb is_nan (flatten3 pred) = true)
    by (apply existsb_exists; exists NaN; split; [exact He | reflexivity]).
  congruence.
Qed.

Lemma nan_to_num_num (x : f64) : nan_to_num x = Num (nan_to_zero_q x).
Proof. destruct x; reflexivity. Qed.

Lemma sanitize_as_rationals (pred : Arr3 f64) :
  sanitize pred = map3 Num (map3 nan_to_zero_q pred).
Proof.
  rewrite sanitize_nan_to_num, map3_map3. unfold map3.
  apply map_ext. intros m. apply map_ext. intros r. apply map_ext. apply nan_to_num_num.
Qed.

Lemma transpose2_map {A B : Type} (f : A -> B) (d : A) (m : list (list A)) :
  transpose2 (f d) (map (map f) m) = map (map f) (transpose2 d m).
Proof.
  unfold transpose2.
  replace (length (hd [] (map (map f) m))) with (length (hd [] m))
    by (destruct m; simpl; [reflexivity | symmetry; apply length_map]).
  rewrite map_map. apply map_ext. intros j.
  rewrite !map_map. apply map_ext. intros row. apply map_nth.
Qed.

(** Mapping an idempotent function before the inner transposition is
    absorbed by mapping it after. *)
Lemma transpose2_map_idem {A : Type} (f : A -> A) (d : A) (m : list (list A)) :
  (forall x, f (f x) = f x) ->
  map (map f) (transpose2 d (map (map f) m)) = map (map f) (transpose2 d m).
Proof.
  intros Hf. unfold transpose2.
  replace (length (hd [] (map (map f) m))) with (length (hd [] m))
    by (destruct m; simpl; [reflexivity | symmetry; apply length_map]).
  rewrite !map_map. apply map_ext. intros j.
  rewrite !map_map. apply map_ext. intros row.
  destruct (Nat.lt_ge_cases j (length row)) as [Hj | Hj].
  - rewrite (nth_map_lt f row j d d) by exact Hj. apply Hf.
  - rewrite !nth_overflow by (try rewrite length_map; exact Hj). reflexivity.
Qed.

Lemma map3_axis_fix_idem (f : f64 -> f64) (pred : Arr3 f64) :
  (forall x, f (f x) = f x) ->
  map3 f (axis_fix (map3 f pred)) = map3 f (axis_fix pred).
Proof.
  intros Hf. unfold axis_fix, map3. rewrite length_map.
  destruct (Nat.eqb (length pred) 3).
  - unfold transpose_120.
    assert (Ht : transpose2 [] (map (map (map f)) pred)
                 = map (map (map f)) (transpose2 [] pred))
      by exact (transpose2_map (map f) [] pred).
    rewrite Ht, !map_map.
    apply map_ext. intros R. apply transpose2_map_idem. exact Hf.
  - rewrite map_map. apply map_ext. intros m. rewrite map_map. apply map_ext.
    intros r. rewrite map_map. apply map_ext. exact Hf.
Qed.

Lemma flatten3_map3 {A B : Type} (f : A -> B) (a : Arr3 A) :
  flatten3 (map3 f a) = map f (flatten3 a).
Proof. unfold flatten3, map3. rewrite <- !concat_map. reflexivity. Qed.

Lemma nan_to_num_idem (x : f64) : nan_to_num (nan_to_num x) = nan_to_num x.
Proof. destruct x; reflexivity. Qed.

(** C3: the array whose statistics are taken is [nan_to_num(pred, nan=0.0)]
    of the axis-corrected prediction, it holds no NaN, and the handler's
    output is the one it gives for the same prediction with every NaN
    already written as 0.0. *)
Theorem nan_replaced_by_zero_before_stats : forall pred,
  sanitize (axis_fix pred) = map3 nan_to_num (axis_fix pred) /\
  (forall x, In x (flatten3 (sanitize (axis_fix pred))) -> is_nan x = false) /\
  normalize_prediction pred = normalize_prediction (map3 nan_to_num pred).
Proof.
  intros pred. split; [apply sanitize_nan_to_num | split].
  - intros x Hx. rewrite sanitize_as_rationals, flatten3_map3 in Hx.
    apply in_map_iff in Hx. destruct Hx as [q [<- _]]. reflexivity.
  - unfold normalize_prediction. rewrite !sanitize_nan_to_num.
    rewrite (map3_axis_fix_idem nan_to_num pred nan_to_num_idem). reflexivity.
Qed.

Example nan_prediction_is_zero_prediction :
  normalize_prediction [[[NaN; Num 1; Num (1#2)]]]
  = normalize_prediction [[[Num 0; Num 1; Num (1#2)]]].
Proof. vm_compute. reflexivity. Qed.

(** ** Min-max rescaling *)

Definition qmin2 (a b : Q) : Q := if Qle_bool a b then a else b.
Definition qmax2 (a b : Q) : Q := if Qle_bool b a then a else b.

(** [min] / [max] of a list of rationals, [None] when empty. *)
Definition q_min (l : list Q) : option Q :=
  match l with [] => None | x :: xs => Some (fold_left qmin2 xs x) end.

Definition q_max (l : list Q) : option Q :=
  match l with [] => None | x :: xs => Some (fold_left qmax2 xs x) end.

(** The values the handler works on after lines 151-158: the
    axis-corrected prediction with NaN read as 0.0. *)
Definition clean_prediction (pred : Arr3 f64) : Arr3 Q :=
  map3 nan_to_zero_q (axis_fix pred).

(** The per-element map in the spec's words: [(value - min) / (max - min)],
    clipped to [0, 1], scaled by 255, truncated to an integer. *)
Definition spec_clip01 (x : Q) : Q :=
  if Qle_bool x 0 then 0 else if Qle_bool 1 x then 1 else x.

Definition spec_rescale (mn mx v : Q) : Z :=
  qtrunc (spec_clip01 ((v - mn) / (mx - mn)) * 255).

Lemma fold_min_num (xs : list Q) (x : Q) :
  fold_left fmin (map Num xs) (Num x) = Num (fold_left qmin2 xs x).
Proof. revert x; induction xs as [| a xs IH]; intros x; simpl; [reflexivity | apply IH]. Qed.

Lemma fold_max_num (xs : list Q) (x : Q) :
  fold_left fmax (map Num xs) (Num x) = Num (fold_left qmax2 xs x).
Proof. revert x; induction xs as [| a xs IH]; intros x; simpl; [reflexivity | apply IH]. Qed.

Lemma arr_min_num (q : Arr3 Q) :
  arr_min (map3 Num q) = option_map Num (q_min (flatten3 q)).
Proof.
  unfold arr_min, q_min. rewrite flatten3_map3.
  destruct (flatten3 q) as [| x xs]; [reflexivity|]. simpl. rewrite fold_min_num. reflexivity.
Qed.

Lemma arr_max_num (q : Arr3 Q) :
  arr_max (map3 Num q) = option_map Num (q_max (flatten3 q)).
Proof.
  unfold arr_max, q_max. rewrite flatten3_map3.
  destruct (flatten3 q) as [| x xs]; [reflexivity|]. simpl. rewrite fold_max_num. reflexivity.
Qed.

Lemma Qle_bool_false (a b : Q) : Qle_bool a b = false -> (b < a)%Q.
Proof.
  intros H. apply Qnot_le_lt. intros Hle. apply Qle_bool_iff in Hle. congruence.
Qed.

Ltac case_qle :=
  repeat match goal with
  | |- context [Qle_bool ?a ?b] =>
      let E := fresh "E" in
      destruct (Qle_bool a b) eqn:E;
      [apply Qle_bool_iff in E | apply Qle_bool_false in E]
  end.

Lemma fold_qmin_spec (xs : list Q) (x : Q) :
  (fold_left qmin2 xs x = x \/ In (fold_left qmin2 xs x) xs) /\
  (fold_left qmin2 xs x <= x)%Q /\
  (forall v, In v xs -> (fold_left qmin2 xs x <= v)%Q).
Proof.
  revert x; induction xs as [| a xs IH]; intros x; simpl.
  - split; [left; reflexivity | split; [apply Qle_refl | intros v []]].
  - destruct (IH (qmin2 x a)) as [Hin [Hle Hall]].
    unfold qmin2 in *. case_qle.
    + split; [destruct Hin as [Hin | Hin]; [left | right; right]; assumption|].
      split; [exact Hle|]. intros v [<- | Hv]; [lra | auto].
    + split; [destruct Hin as [Hin | Hin]; right; [left; symmetry | right]; assumption|].
      split; [lra|]. intros v [<- | Hv]; [exact Hle | auto].
Qed.

Lemma fold_qmax_spec (xs : list Q) (x : Q) :
  (fold_left qmax2 xs x = x \/ In (fold_left qmax2 xs x) xs) /\
  (x <= fold_left qmax2 xs x)%Q /\
  (forall v, In v xs -> (v <= fold_left qmax2 xs x)%Q).
Proof.
  revert x; induction xs as [| a xs IH]; intros x; simpl.
  - split; [left; reflexivity | split; [apply Qle_refl | intros v []]].
  - destruct (IH (qmax2 x a)) as [Hin [Hle Hall]].
    unfold qmax2 in *. case_qle.
    + split; [destruct Hin as [Hin | Hin]; [left | right; right]; assumption|].
      split; [exact Hle|]. intros v [<- | Hv]; [lra | auto].
    + split; [destruct Hin as [Hin | Hin]; right; [left; symmetry | right]; assumption|].
      split; [lra|]. intros v [<- | Hv]; [exact Hle | auto].
Qed.

Lemma q_min_spec (l : list Q) (mn : Q) :
  q_min l = Some mn -> In mn l /\ forall v, In v l -> (mn <= v)%Q.
Proof.
  destruct l as [| x xs]; simpl; [discriminate|]. intros H; injection H as <-.
  destruct (fold_qmin_spec xs x) as [Hin [Hle Hall]].
  split; [destruct Hin as [-> | Hin]; [left | right]; auto|].
  intros v [<- | Hv]; auto.
Qed.

Lemma q_max_spec (l : list Q) (mx : Q) :
  q_max l = Some mx -> In mx l /\ forall v, In v l -> (v <= mx)%Q.
Proof.
  destruct l as [| x xs]; simpl; [discriminate|]. intros H; injection H as <-.
  destruct (fold_qmax_spec xs x) as [Hin [Hle Hall]].
  split; [destruct Hin as [-> | Hin]; [left | right]; auto|].
  intros v [<- | Hv]; auto.
Qed.

Lemma qtrunc_floor (q : Q) : (0 <= q)%Q -> qtrunc q = Qfloor q.
Proof.
  destruct q as [n d]. unfold Qle. simpl. intros H.
  unfold qtrunc, Qfloor. simpl. apply Z.quot_div_nonneg; lia.
Qed.

Lemma floor_0_255 (y : Q) : (0 <= y <= 255)%Q -> 0 <= Qfloor y <= 255.
Proof.
  intros [H0 H1]. split.
  - change 0 with (Qfloor 0). apply Qfloor_resp_le. exact H0.
  - change 255 with (Qfloor 255). apply Qfloor_resp_le. exact H1.
Qed.

Lemma spec_clip01_bounds (x : Q) : (0 <= spec_clip01 x <= 1)%Q.
Proof. unfold spec_clip01. case_qle; lra. Qed.

Lemma spec_clip01_mono (x y : Q) : (x <= y)%Q -> (spec_clip01 x <= spec_clip01 y)%Q.
Proof. intros H. unfold spec_clip01. case_qle; lra. Qed.

(** [np.clip] as the handler computes it agrees with [spec_clip01]. *)
Lemma fclip01_num (x : Q) : exists c, fclip01 (Num x) = Num c /\ (c == spec_clip01 x)%Q.
Proof.
  unfold fclip01, fmin, fmax, spec_clip01.
  eexists; split; [reflexivity|].
  destruct (Qle_bool 0 x) eqn:E0; [apply Qle_bool_iff in E0 | apply Qle_bool_false in E0];
    case_qle; lra.
Qed.

Lemma spec_rescale_bounds (mn mx v : Q) : 0 <= spec_rescale mn mx v <= 255.
Proof.
  unfold spec_rescale. pose proof (spec_clip01_bounds ((v - mn) / (mx - mn))).
  rewrite qtrunc_floor by nra. apply floor_0_255. nra.
Qed.

Lemma rescale_element (mn mx v : Q) :
  to_uint8 (fmul (fclip01 (fdiv (fsub (Num v) (Num mn)) (fsub (Num mx) (Num mn)))) (Num 255))
  = spec_rescale mn mx v.
Proof.
  simpl fsub. simpl fdiv.
  destruct (fclip01_num ((v - mn) / (mx - mn))) as [c [Hc Hce]]. rewrite Hc.
  pose proof (spec_clip01_bounds ((v - mn) / (mx - mn))) as Hb.
  set (sc := spec_clip01 ((v - mn) / (mx - mn))) in *.
  assert (Hc0 : (0 <= c * 255)%Q) by (rewrite Hce; nra).
  assert (Hs0 : (0 <= sc * 255 <= 255)%Q) by nra.
  unfold fmul, to_uint8, spec_rescale. fold sc.
  rewrite (qtrunc_floor (c * 255)) by exact Hc0.
  rewrite (qtrunc_floor (sc * 255)) by apply Hs0.
  rewrite (Qfloor_comp (c * 255) (sc * 255)) by (rewrite Hce; reflexivity).
  apply Z.mod_small. pose proof (floor_0_255 (sc * 255) Hs0). lia.
Qed.

Lemma spec_rescale_mono (mn mx v w : Q) :
  (0 < mx - mn)%Q -> (v <= w)%Q -> spec_rescale mn mx v <= spec_rescale mn mx w.
Proof.
  intros Hs Hvw. unfold spec_rescale.
  assert (Hx : ((v - mn) / (mx - mn) <= (w - mn) / (mx - mn))%Q).
  { unfold Qdiv. apply Qmult_le_compat_r; [lra|].
    apply Qinv_le_0_compat. lra. }
  pose proof (spec_clip01_mono _ _ Hx) as Hm.
  pose proof (spec_clip01_bounds ((v - mn) / (mx - mn))).
  pose proof (spec_clip01_bounds ((w - mn) / (mx - mn))).
  rewrite !qtrunc_floor by nra.
  apply Qfloor_resp_le. nra.
Qed.

Lemma spec_rescale_min (mn mx : Q) : (0 < mx - mn)%Q -> spec_rescale mn mx mn = 0.
Proof.
  intros Hs. unfold spec_rescale, spec_clip01.
  assert (Hz : ((mn - mn) / (mx - mn) == 0)%Q) by (field; lra).
  destruct (Qle_bool ((mn - mn) / (mx - mn)) 0) eqn:E; [reflexivity|].
  apply Qle_bool_false in E. lra.
Qed.

Lemma spec_rescale_max (mn mx : Q) : (0 < mx - mn)%Q -> spec_rescale mn mx mx = 255.
Proof.
  intros Hs. unfold spec_rescale, spec_clip01.
  assert (Ho : ((mx - mn) / (mx - mn) == 1)%Q) by (field; lra).
  destruct (Qle_bool ((mx - mn) / (mx - mn)) 0) eqn:E1.
  { apply Qle_bool_iff in E1. lra. }
  destruct (Qle_bool 1 ((mx - mn) / (mx - mn))) eqn:E2; [reflexivity|].
  apply Qle_bool_false in E2. lra.
Qed.

(** C1: when the NaN-free prediction spans more than 0.1, the output is
    the prediction with every value [v] mapped to
    [trunc(clip((v - min) / (max - min), 0, 1) * 255)], where [min] and
    [max] are the global minimum and maximum; that map sends [min] to 0
    and [max] to 255, stays in [0, 255] and is monotone. *)
Theorem rescale_when_span_gt_01 : forall pred mn mx,
  q_min (flatten3 (clean_prediction pred)) = Some mn ->
  q_max (flatten3 (clean_prediction pred)) = Some mx ->
  (1 # 10 < mx - mn)%Q ->
  normalize_prediction pred = Some (map3 (spec_rescale mn mx) (clean_prediction pred)) /\
  In mn (flatten3 (clean_prediction pred)) /\
  In mx (flatten3 (clean_prediction pred)) /\
  (forall v, In v (flatten3 (clean_prediction pred)) -> (mn <= v <= mx)%Q) /\
  spec_rescale mn mx mn = 0 /\
  spec_rescale mn mx mx = 255 /\
  (forall v, 0 <= spec_rescale mn mx v <= 255) /\
  (forall v w, (v <= w)%Q -> spec_rescale mn mx v <= spec_rescale mn mx w).
Proof.
  intros pred mn mx Hmn Hmx Hspan.
  assert (Hpos : (0 < mx - mn)%Q) by lra.
  destruct (q_min_spec _ _ Hmn) as [Hinmn Hlow].
  destruct (q_max_spec _ _ Hmx) as [Hinmx Hhigh].
  split; [| split; [exact Hinmn | split; [exact Hinmx | split]]].
  - unfold normalize_prediction. rewrite sanitize_as_rationals.
    fold (clean_prediction pred).
    rewrite arr_min_num, arr_max_num, Hmn, Hmx. cbn [option_map]. cbv beta iota zeta.
    assert (Hg : fgt (fsub (Num mx) (Num mn)) (Num (1 # 10)) = true).
    { unfold fgt, fsub. destruct (Qle_bool (mx - mn) (1 # 10)) eqn:E; [|reflexivity].
      apply Qle_bool_iff in E. lra. }
    rewrite Hg. cbv beta iota zeta. rewrite !map3_map3. f_equal.
    unfold map3. apply map_ext. intros m. apply map_ext. intros r. apply map_ext.
    intros v. apply rescale_element.
  - intros v Hv. split; [apply Hlow | apply Hhigh]; exact Hv.
  - split; [apply spec_rescale_min; exact Hpos|].
    split; [apply spec_rescale_max; exact Hpos|].
    split; [apply spec_rescale_bounds|].
    intros v w Hvw. apply spec_rescale_mono; assumption.
Qed.

Definition ramp_prediction : Arr3 f64 :=
  [[[Num (-1); Num 0; Num 0]; [Num 1; Num 0; Num 0]]].

Lemma rescale_when_span_gt_01_witness :
  q_min (flatten3 (clean_prediction ramp_prediction)) = Some (-1)%Q /\
  q_max (flatten3 (clean_prediction ramp_prediction)) = Some 1%Q /\
  (1 # 10 < 1 - -1)%Q /\
  normalize_prediction ramp_prediction
    = Some (map3 (spec_rescale (-1) 1) (clean_prediction ramp_prediction)) /\
  spec_rescale (-1) 1 (-1) = 0 /\ spec_rescale (-1) 1 1 = 255.
Proof.
  assert (H1 : q_min (flatten3 (clean_prediction ramp_prediction)) = Some (-1)%Q)
    by (vm_compute; reflexivity).
  assert (H2 : q_max (flatten3 (clean_prediction ramp_prediction)) = Some 1%Q)
    by (vm_compute; reflexivity).
  assert (H3 : (1 # 10 < 1 - -1)%Q) by (vm_compute; reflexivity).
  destruct (rescale_when_span_gt_01 ramp_prediction (-1) 1 H1 H2 H3)
    as [Hn [_ [_ [_ [Hlo [Hhi _]]]]]].
  split; [exact H1 | split; [exact H2 | split; [exact H3 | split; [exact Hn | split; [exact Hlo | exact Hhi]]]]].
Defined.

(** * Further properties of the handler *)

(** ** Composition lemmas *)

Definition model_id : string := "prs-eth/marigold-normals-v1-1".

Definition chosen_device (env : Env) : Device :=
  if cuda_is_available env then Cuda else Cpu.

Definition chosen_dtype (env : Env) : Dtype :=
  match chosen_device env with Cuda => Float16 | Cpu => Float32 end.

Lemma load_pipeline_ok : forall env s p s',
  load_pipeline env s = (inr p, s') ->
  PIPELINE s' = Some p /\ trace s' = (trace s ++ [EvLoadPipeline])%list /\
  (PIPELINE s = Some p \/
   (PIPELINE s = None /\
    exists p0, from_pretrained env model_id (chosen_dtype env) = inr p0 /\
               pipe_to env p0 (chosen_device env) = inr p)).
Proof.
  intros env [c t] p s' H. unfold load_pipeline in H. unfold_monad. simpl in *.
  destruct c as [p1 |].
  - inversion H; subst. simpl. split; [reflexivity | split; [reflexivity | left; reflexivity]].
  - unfold chosen_dtype, chosen_device, model_id.
    destruct (cuda_is_available env); simpl in H |- *;
    destruct (from_pretrained env _ _) as [m | p0] eqn:E1; simpl in H; try discriminate;
    destruct (pipe_to env p0 _) as [m | p2] eqn:E2; simpl in H; try discriminate;
    inversion H; subst; simpl;
    (split; [reflexivity | split; [reflexivity | right; split; [reflexivity|]]]);
    exists p0; split; first [reflexivity | assumption].
Qed.

Lemma select_output_state : forall r s x s',
  select_output r s = (x, s') -> s' = s.
Proof.
  intros [[[| pred preds] |] imgs] s x s' H; unfold select_output in H; unfold_monad;
    simpl in H.
  - inversion H; reflexivity.
  - destruct (normalize_prediction pred) as [a |]; [destruct (image_fromarray a)|];
      inversion H; reflexivity.
  - destruct imgs as [[| i is] |]; inversion H; reflexivity.
Qed.

Lemma prefix_app : forall p t, String.prefix p (p ++ t) = true.
Proof.
  induction p as [| c p IH]; intros t; simpl.
  - destruct t; reflexivity.
  - destruct (Ascii.ascii_dec c c) as [_ | n]; [apply IH | exfalso; apply n; reflexivity].
Qed.

(** The calls a successful [_fetch_image_from_url] made: a base64 decode
    of the payload after the first comma and an image open for a
    [data:image] reference; an HTTP get with timeout 15 and an image open
    for any other. *)
Definition acquisition_events (url : string) (evs : list event) : Prop :=
  if String.prefix "data:image" url
  then exists pre payload, split_comma url = Some (pre, payload) /\
                           evs = [EvB64Decode payload; EvImageOpen]
  else evs = [EvRequestsGet url 15; EvImageOpen].

Lemma fetch_image_ok : forall env url s img s1,
  fetch_image_from_url env url s = (inr img, s1) ->
  PIPELINE s1 = PIPELINE s /\
  exists evs, acquisition_events url evs /\ trace s1 = (trace s ++ evs)%list.
Proof.
  intros env url [c t] img s1 H. unfold fetch_image_from_url, raise_for_status in H.
  unfold acquisition_events. unfold_monad.
  destruct (String.prefix "data:image" url).
  - destruct (split_comma url) as [[pre payload] |] eqn:Es; [| discriminate].
    destruct (b64decode env payload) as [m | data]; simpl in H; [discriminate|].
    destruct (image_open_rgb env data); simpl in H; [discriminate|].
    inversion H; subst. simpl. split; [reflexivity|].
    exists [EvB64Decode payload; EvImageOpen]. split.
    + exists pre, payload. split; [reflexivity | reflexivity].
    + rewrite <- app_assoc. reflexivity.
  - destruct (requests_get env url 15) as [m | resp]; simpl in H; [discriminate|].
    destruct (andb (400 <=? status_code resp)%Z (status_code resp <? 600)%Z);
      simpl in H; [discriminate|].
    destruct (image_open_rgb env (content resp)); simpl in H; [discriminate|].
    inversion H; subst. simpl. split; [reflexivity|].
    exists [EvRequestsGet url 15; EvImageOpen]. split; [reflexivity|].
    rewrite <- app_assoc. reflexivity.
Qed.

(** A successful request: the fetch's events, then one pipeline access,
    then one inference with the effective step count and the seed; the
    cache holds a pipeline; the body is a PNG data URL. *)
Lemma marigold_normals_ok : forall env req s r s',
  marigold_normals env req s = (inr r, s') ->
  exists evs p b,
    acquisition_events (image_url req) evs /\
    trace s' = (trace s ++ evs ++
                [EvLoadPipeline; EvInference (effective_steps (num_inference_steps req)) (seed req)])%list /\
    PIPELINE s' = Some p /\
    normal_map_base64 r = "data:image/png;base64," ++ b.
Proof.
  intros env req s r s' H. unfold marigold_normals in H. unfold bind at 1 in H.
  destruct (fetch_image_from_url env (image_url req) s) as [[e | img] s1] eqn:Ef;
    [discriminate|].
  destruct (fetch_image_ok _ _ _ _ _ Ef) as [Hc1 [evs [Hf1 Ht1]]].
  unfold bind at 1 in H. unfold try_except at 1 in H.
  destruct (load_pipeline env s1) as [[e | p] s2] eqn:El.
  { unfold raise in H. discriminate. }
  destruct (load_pipeline_ok _ _ _ _ El) as [Hc2 [Ht2 _]].
  unfold bind at 1 in H. unfold try_except at 1 in H. unfold bind at 1 in H.
  unfold log at 1 in H. unfold lift at 1 in H.
  destruct (run_pipe env p img (effective_steps (num_inference_steps req)) (seed req))
    as [m | res] eqn:Er; unfold raise, ret in H; [discriminate|].
  unfold bind at 1 in H.
  match type of H with
  | context [select_output res ?st] =>
      destruct (select_output res st) as [[e | img'] s3] eqn:Es;
      [discriminate|];
      apply select_output_state in Es
  end.
  unfold ret in H. inversion H; subst s3 r s'. simpl.
  exists evs, p, (png_b64encode env img').
  split; [exact Hf1|]. split; [| split; [exact Hc2 | reflexivity]].
  rewrite Ht2, Ht1, <- !app_assoc. reflexivity.
Qed.

(** ** Collaborators that succeed, for evaluation *)

Definition cpu_pipe : Pipe :=
  {| pipe_model := model_id; pipe_dtype := Float32; pipe_device := Cpu |}.

(** No accelerator; the model loads; inference returns [images] only, or
    raises when [infer_ok] is false. *)
Definition online_env (infer_ok : bool) : Env := {|
  cuda_is_available := false;
  from_pretrained := fun m d => inr {| pipe_model := m; pipe_dtype := d; pipe_device := Cpu |};
  pipe_to := fun p dev => inr {| pipe_model := pipe_model p; pipe_dtype := pipe_dtype p;
                                 pipe_device := dev |};
  b64decode := fun s => inr s;
  requests_get := fun _ _ => inr {| status_code := 404; content := "" |};
  image_open_rgb := fun _ => inr black_pixel;
  run_pipe := fun _ _ _ _ =>
    if infer_ok then inr {| prediction := None; images := Some [black_pixel] |}
    else inl "CUDA out of memory";
  png_b64encode := fun _ => "AAAA"
|}.

(** ** Pipeline cache *)

(** The process state after serving a sequence of requests, each with the
    library behaviour of its own moment. *)
Fixpoint serve_many (reqs : list (Env * MarigoldRequest)) (s : St) : St :=
  match reqs with
  | [] => s
  | (env, req) :: rest => serve_many rest (snd (serve env req s))
  end.

(** A request never clears or replaces a cached pipeline. *)
Lemma marigold_normals_keeps_cache : forall env req t p,
  PIPELINE t = Some p -> PIPELINE (snd (marigold_normals env req t)) = Some p.
Proof.
  intros env req t p Hc. unfold marigold_normals. unfold bind at 1.
  destruct (fetch_image_from_url env (image_url req) t) as [[e | img] s1] eqn:Ef.
  - destruct (fetch_image_frame env (image_url req) t) as [H1 _].
    rewrite Ef in H1. simpl in *. congruence.
  - destruct (fetch_image_frame env (image_url req) t) as [H1 _].
    rewrite Ef in H1. simpl in H1.
    unfold bind at 1. unfold try_except at 1.
    rewrite (load_pipeline_cached env p s1) by congruence.
    unfold bind at 1. unfold try_except at 1. unfold bind at 1.
    unfold log at 1. unfold lift at 1.
    destruct (run_pipe env p img (effective_steps (num_inference_steps req)) (seed req))
      as [m | res]; unfold raise, ret; simpl; [congruence|].
    unfold bind at 1.
    match goal with
    | |- context [select_output res ?st] =>
        destruct (select_output res st) as [[e | img'] s3] eqn:Es;
        apply select_output_state in Es; subst s3; simpl; congruence
    end.
Qed.

Lemma serve_many_keeps_cache : forall reqs t p,
  PIPELINE t = Some p -> PIPELINE (serve_many reqs t) = Some p.
Proof.
  induction reqs as [| [env req] rest IH]; intros t p Hc; simpl; [exact Hc|].
  apply IH. unfold serve.
  pose proof (marigold_normals_keeps_cache env req t p Hc) as Hk.
  destruct (marigold_normals env req t) as [[[c d | m] | r] s'];
    simpl in *; exact Hk.
Qed.

(** Once [_load_pipeline] returns a pipeline, [_PIPELINE] holds it; after
    any later sequence of requests it still does, and a call of the
    accessor there returns that same pipeline without initialising again,
    whatever the libraries would do. *)
Theorem pipeline_reused_after_load : forall env s p s',
  load_pipeline env s = (inr p, s') ->
  PIPELINE s' = Some p /\
  forall (later : list (Env * MarigoldRequest)) env',
    PIPELINE (serve_many later s') = Some p /\
    load_pipeline env' (serve_many later s')
    = (inr p, {| PIPELINE := Some p;
                 trace := (trace (serve_many later s') ++ [EvLoadPipeline])%list |}).
Proof.
  intros env s p s' H. destruct (load_pipeline_ok _ _ _ _ H) as [Hc _].
  split; [exact Hc|]. intros later env'.
  pose proof (serve_many_keeps_cache later s' p Hc) as Hk.
  split; [exact Hk|]. rewrite (load_pipeline_cached env' p _ Hk), Hk. reflexivity.
Qed.

Definition loaded_state : St := {| PIPELINE := Some cpu_pipe; trace := [EvLoadPipeline] |}.

Lemma pipeline_reused_after_load_witness :
  load_pipeline (online_env true) empty_state = (inr cpu_pipe, loaded_state) /\
  PIPELINE (serve_many [(offline_env, data_uri_request); (online_env false, data_uri_request)]
                       loaded_state) = Some cpu_pipe /\
  load_pipeline offline_env
    (serve_many [(offline_env, data_uri_request); (online_env false, data_uri_request)]
                loaded_state)
  = (inr cpu_pipe,
     {| PIPELINE := Some cpu_pipe;
        trace := (trace (serve_many [(offline_env, data_uri_request);
                                     (online_env false, data_uri_request)] loaded_state)
                  ++ [EvLoadPipeline])%list |}).
Proof.
  assert (H : load_pipeline (online_env true) empty_state = (inr cpu_pipe, loaded_state))
    by reflexivity.
  destruct (pipeline_reused_after_load _ _ _ _ H) as [_ Hl].
  split; [exact H | apply Hl].
Defined.

(** A first load asks for the model in float16 and moves it to CUDA when
    CUDA is available, and asks for float32 on the CPU otherwise. *)
Theorem first_load_device_and_dtype : forall env s p s',
  PIPELINE s = None ->
  load_pipeline env s = (inr p, s') ->
  exists p0,
    from_pretrained env "prs-eth/marigold-normals-v1-1"
      (if cuda_is_available env then Float16 else Float32) = inr p0 /\
    pipe_to env p0 (if cuda_is_available env then Cuda else Cpu) = inr p.
Proof.
  intros env s p s' Hn H.
  destruct (load_pipeline_ok _ _ _ _ H) as [_ [_ [Hs | [_ [p0 [E1 E2]]]]]]; [congruence|].
  exists p0. unfold chosen_dtype, chosen_device, model_id in *.
  destruct (cuda_is_available env); split; assumption.
Qed.

Lemma first_load_device_and_dtype_witness :
  PIPELINE empty_state = None /\
  load_pipeline (online_env true) empty_state
    = (inr cpu_pipe, {| PIPELINE := Some cpu_pipe; trace := [EvLoadPipeline] |}) /\
  exists p0,
    from_pretrained (online_env true) "prs-eth/marigold-normals-v1-1"
      (if cuda_is_available (online_env true) then Float16 else Float32) = inr p0 /\
    pipe_to (online_env true) p0 (if cuda_is_available (online_env true) then Cuda else Cpu)
      = inr cpu_pipe.
Proof.
  split; [reflexivity | split; [reflexivity|]].
  apply (first_load_device_and_dtype (online_env true) empty_state cpu_pipe
           {| PIPELINE := Some cpu_pipe; trace := [EvLoadPipeline] |}); reflexivity.
Defined.

(** ** Image download *)

(** An HTTP response with a 4xx or 5xx status is rejected by
    [raise_for_status]: the request fails with HTTP 400 before the body is
    opened as an image. *)
Theorem http_error_status_rejected : forall env url s resp,
  String.prefix "data:image" url = false ->
  requests_get env url 15 = inr resp ->
  (400 <= status_code resp < 600) ->
  exists msg,
    fetch_image_from_url env url s
    = (inl (HTTPException 400 ("Failed to load/parse image: " ++ msg)),
       {| PIPELINE := PIPELINE s; trace := (trace s ++ [EvRequestsGet url 15])%list |}).
Proof.
  intros env url s resp Hp Hg Hs. unfold fetch_image_from_url, raise_for_status.
  rewrite Hp. unfold_monad. simpl. rewrite Hg. unfold ret. simpl.
  replace (andb (400 <=? status_code resp)%Z (status_code resp <? 600)%Z) with true
    by (symmetry; apply andb_true_iff; split; [apply Z.leb_le | apply Z.ltb_lt]; lia).
  eexists. reflexivity.
Qed.

Lemma http_error_status_rejected_witness :
  String.prefix "data:image" "https://example.com/a.png" = false /\
  requests_get (online_env true) "https://example.com/a.png" 15
    = inr {| status_code := 404; content := "" |} /\
  (400 <= 404 < 600) /\
  exists msg,
    fetch_image_from_url (online_env true) "https://example.com/a.png" empty_state
    = (inl (HTTPException 400 ("Failed to load/parse image: " ++ msg)),
       {| PIPELINE := None; trace := ([] ++ [EvRequestsGet "https://example.com/a.png" 15])%list |}).
Proof.
  split; [reflexivity | split; [reflexivity | split; [lia|]]].
  apply (http_error_status_rejected (online_env true) "https://example.com/a.png" empty_state
           {| status_code := 404; content := "" |}); first [reflexivity | simpl; lia].
Defined.

(** A [data:image] reference with no comma cannot be split into header and
    payload: the request fails with HTTP 400 and nothing is decoded. *)
Theorem data_uri_without_comma_rejected : forall env url s,
  String.prefix "data:image" url = true ->
  split_comma url = None ->
  exists msg,
    fetch_image_from_url env url s
    = (inl (HTTPException 400 ("Failed to load/parse image: " ++ msg)), s).
Proof.
  intros env url s Hp Hs. unfold fetch_image_from_url. rewrite Hp, Hs.
  unfold_monad. eexists. reflexivity.
Qed.

Lemma data_uri_without_comma_rejected_witness :
  String.prefix "data:image" "data:image/png" = true /\
  split_comma "data:image/png" = None /\
  exists msg,
    fetch_image_from_url offline_env "data:image/png" empty_state
    = (inl (HTTPException 400 ("Failed to load/parse image: " ++ msg)), empty_state).
Proof.
  split; [reflexivity | split; [reflexivity|]].
  apply data_uri_without_comma_rejected; reflexivity.
Defined.

(** ** Inference and the response *)

(** When inference raises, the client gets HTTP 500
    [Model inference failed: ...] with the exception's text, and the
    pipeline stays cached for the next request. *)
Theorem inference_failure_500_keeps_pipeline : forall env req s img s1 p s2 m,
  fetch_image_from_url env (image_url req) s = (inr img, s1) ->
  load_pipeline env s1 = (inr p, s2) ->
  run_pipe env p img (effective_steps (num_inference_steps req)) (seed req) = inl m ->
  exists s3,
    serve env req s = (HttpError 500 ("Model inference failed: " ++ m), s3) /\
    PIPELINE s3 = Some p.
Proof.
  intros env req s img s1 p s2 m Hf Hl Hr.
  destruct (load_pipeline_ok _ _ _ _ Hl) as [Hc _].
  eexists. split.
  - unfold serve, marigold_normals. unfold bind at 1. rewrite Hf.
    unfold bind at 1. unfold try_except at 1. rewrite Hl.
    unfold bind at 1. unfold try_except at 1. unfold bind at 1.
    unfold log at 1. unfold lift at 1. rewrite Hr. reflexivity.
  - simpl. exact Hc.
Qed.

Lemma inference_failure_500_keeps_pipeline_witness :
  fetch_image_from_url (online_env false) (image_url data_uri_request) empty_state
    = (inr black_pixel, {| PIPELINE := None; trace := [EvB64Decode "xyz"; EvImageOpen] |}) /\
  load_pipeline (online_env false) {| PIPELINE := None; trace := [EvB64Decode "xyz"; EvImageOpen] |}
    = (inr cpu_pipe,
       {| PIPELINE := Some cpu_pipe; trace := [EvB64Decode "xyz"; EvImageOpen; EvLoadPipeline] |}) /\
  run_pipe (online_env false) cpu_pipe black_pixel 30 None = inl "CUDA out of memory" /\
  exists s3,
    serve (online_env false) data_uri_request empty_state
      = (HttpError 500 ("Model inference failed: " ++ "CUDA out of memory"), s3) /\
    PIPELINE s3 = Some cpu_pipe.
Proof.
  split; [reflexivity | split; [reflexivity | split; [reflexivity|]]].
  apply (inference_failure_500_keeps_pipeline (online_env false) data_uri_request empty_state
           black_pixel {| PIPELINE := None; trace := [EvB64Decode "xyz"; EvImageOpen] |}
           cpu_pipe
           {| PIPELINE := Some cpu_pipe; trace := [EvB64Decode "xyz"; EvImageOpen; EvLoadPipeline] |});
    reflexivity.
Defined.

Definition png_ok_state : St :=
  {| PIPELINE := Some cpu_pipe;
     trace := [EvB64Decode "xyz"; EvImageOpen; EvLoadPipeline; EvInference 30 None] |}.

(** Every successful reply carries a [data:image/png;base64,] URL. *)
Theorem success_body_is_png_data_url : forall env req s r s',
  serve env req s = (Ok200 r, s') ->
  String.prefix "data:image/png;base64," (normal_map_base64 r) = true.
Proof.
  intros env req s r s' H. unfold serve in H.
  destruct (marigold_normals env req s) as [[[c d | m] | r0] s0] eqn:E; try discriminate.
  inversion H; subst r0 s0.
  destruct (marigold_normals_ok _ _ _ _ _ E) as [evs [p [b [_ [_ [_ ->]]]]]].
  apply prefix_app.
Qed.

Lemma success_body_is_png_data_url_witness :
  serve (online_env true) data_uri_request empty_state
    = (Ok200 {| normal_map_base64 := "data:image/png;base64,AAAA" |}, png_ok_state) /\
  String.prefix "data:image/png;base64,"
    (normal_map_base64 {| normal_map_base64 := "data:image/png;base64,AAAA" |}) = true.
Proof.
  assert (H : serve (online_env true) data_uri_request empty_state
              = (Ok200 {| normal_map_base64 := "data:image/png;base64,AAAA" |}, png_ok_state))
    by reflexivity.
  split; [exact H | exact (success_body_is_png_data_url _ _ _ _ _ H)].
Defined.

(** A successful request runs, in this order: the image acquisition (base64
    decode of the payload, or HTTP get with timeout 15, then image open),
    one call of the pipeline accessor, and one inference with the effective
    step count and the request's seed; afterwards the pipeline is cached. *)
Theorem success_call_order_and_cache : forall env req s r s',
  serve env req s = (Ok200 r, s') ->
  exists evs p,
    acquisition_events (image_url req) evs /\
    trace s' = (trace s ++ evs ++
                [EvLoadPipeline; EvInference (effective_steps (num_inference_steps req)) (seed req)])%list /\
    PIPELINE s' = Some p.
Proof.
  intros env req s r s' H. unfold serve in H.
  destruct (marigold_normals env req s) as [[[c d | m] | r0] s0] eqn:E; try discriminate.
  inversion H; subst r0 s0.
  destruct (marigold_normals_ok _ _ _ _ _ E) as [evs [p [b [Hf [Ht [Hc _]]]]]].
  exists evs, p. split; [exact Hf | split; assumption].
Qed.

Lemma success_call_order_and_cache_witness :
  serve (online_env true) data_uri_request empty_state
    = (Ok200 {| normal_map_base64 := "data:image/png;base64,AAAA" |}, png_ok_state) /\
  exists evs p,
    acquisition_events (image_url data_uri_request) evs /\
    trace png_ok_state = (trace empty_state ++ evs ++
       [EvLoadPipeline; EvInference (effective_steps (num_inference_steps data_uri_request))
                                    (seed data_uri_request)])%list /\
    PIPELINE png_ok_state = Some p.
Proof.
  assert (H : serve (online_env true) data_uri_request empty_state
              = (Ok200 {| normal_map_base64 := "data:image/png;base64,AAAA" |}, png_ok_state))
    by reflexivity.
  split; [exact H | exact (success_call_order_and_cache _ _ _ _ _ H)].
Defined.

(** Whatever the request holds (null, zero, negative or small), the step
    count handed to the pipeline is at least 20. *)
Theorem effective_steps_at_least_20 : forall n, 20 <= effective_steps n.
Proof. intros n. unfold effective_steps. lia. Qed.

(** ** Low-contrast fallback and empty predictions *)

Lemma option_map_list_map {A B : Type} (f : A -> option B) (g : A -> B) (l : list A) :
  (forall x, In x l -> f x = Some (g x)) -> option_map_list f l = Some (map g l).
Proof.
  induction l as [| x xs IH]; intros H; simpl; [reflexivity|].
  rewrite (H x (or_introl eq_refl)), IH; [reflexivity|].
  intros y Hy. apply H. right. exact Hy.
Qed.

(** When the NaN-free prediction spans at most 0.1 and every pixel has 3
    channels, the output keeps the prediction's height and width and every
    pixel is (127, 127, 255), whatever the values were. *)
Theorem low_contrast_gives_flat_pixels : forall pred mn mx,
  q_min (flatten3 (clean_prediction pred)) = Some mn ->
  q_max (flatten3 (clean_prediction pred)) = Some mx ->
  (mx - mn <= 1 # 10)%Q ->
  (forall m px, In m (axis_fix pred) -> In px m -> length px = 3%nat) ->
  normalize_prediction pred = Some (map (map (fun _ => [127; 127; 255])) (axis_fix pred)).
Proof.
  intros pred mn mx Hmn Hmx Hspan Hpx.
  unfold normalize_prediction. rewrite sanitize_as_rationals.
  fold (clean_prediction pred).
  rewrite arr_min_num, arr_max_num, Hmn, Hmx. cbn [option_map]. cbv beta iota zeta.
  assert (Hg : fgt (fsub (Num mx) (Num mn)) (Num (1 # 10)) = false).
  { unfold fgt, fsub. apply Qle_bool_iff in Hspan. rewrite Hspan. reflexivity. }
  rewrite Hg. cbv beta iota zeta.
  unfold clean_prediction, flat_normal_map. rewrite map3_map3. unfold map3 at 1.
  rewrite (option_map_list_map _
             (map (fun _ => [Num (1 # 2); Num (1 # 2); Num 1]))).
  2:{ intros m' Hm'. apply in_map_iff in Hm'. destruct Hm' as [m [<- Hm]].
      apply option_map_list_map. intros px' Hpx'. apply in_map_iff in Hpx'.
      destruct Hpx' as [px [<- Hin]]. unfold flat_pixel.
      rewrite length_map, (Hpx m px Hm Hin). reflexivity. }
  f_equal. unfold map3. rewrite !map_map. apply map_ext. intros m.
  rewrite !map_map. apply map_ext. intros px. reflexivity.
Qed.

Definition dim_prediction : Arr3 f64 :=
  [[[Num (1#2); Num (1#2); Num (1#2)]; [Num (1#2); Num (1#2); Num (11#20)]]].

Lemma low_contrast_gives_flat_pixels_witness :
  q_min (flatten3 (clean_prediction dim_prediction)) = Some (1#2)%Q /\
  q_max (flatten3 (clean_prediction dim_prediction)) = Some (11#20)%Q /\
  normalize_prediction dim_prediction
    = Some (map (map (fun _ => [127; 127; 255])) (axis_fix dim_prediction)).
Proof.
  assert (H1 : q_min (flatten3 (clean_prediction dim_prediction)) = Some (1#2)%Q)
    by (vm_compute; reflexivity).
  assert (H2 : q_max (flatten3 (clean_prediction dim_prediction)) = Some (11#20)%Q)
    by (vm_compute; reflexivity).
  split; [exact H1 | split; [exact H2|]].
  apply (low_contrast_gives_flat_pixels dim_prediction (1#2) (11#20) H1 H2).
  - vm_compute. discriminate.
  - intros m px Hm Hpx. vm_compute in Hm.
    destruct Hm as [<- | []]. destruct Hpx as [<- | [<- | []]]; reflexivity.
Defined.

Lemma flatten3_nil_iff {A : Type} (a : Arr3 A) :
  flatten3 a = [] <-> forall m r, In m a -> In r m -> r = [].
Proof.
  unfold flatten3. rewrite concat_nil_Forall, Forall_forall. split.
  - intros H m r Hm Hr. apply H. apply in_concat. exists m. split; assumption.
  - intros H r Hr. apply in_concat in Hr. destruct Hr as [m [Hm Hr]]. exact (H m r Hm Hr).
Qed.

Lemma axis_fix_empty (pred : Arr3 f64) :
  flatten3 pred = [] -> flatten3 (axis_fix pred) = [].
Proof.
  intros H. unfold axis_fix. destruct (Nat.eqb (length pred) 3); [| exact H].
  rewrite flatten3_nil_iff in H |- *. intros m r Hm Hr. exfalso.
  unfold transpose_120 in Hm. apply in_map_iff in Hm. destruct Hm as [R [<- HR]].
  unfold transpose2 in HR. apply in_map_iff in HR. destruct HR as [j [<- _]].
  unfold transpose2 in Hr.
  assert (Hw : length (hd [] (map (fun row => nth j row []) pred)) = 0%nat).
  { destruct pred as [| row0 rest]; [reflexivity|]. simpl.
    destruct (nth_in_or_default j row0 []) as [Hin | Hd].
    - rewrite (H row0 _ (or_introl eq_refl) Hin). reflexivity.
    - rewrite Hd. reflexivity. }
  rewrite Hw in Hr. simpl in Hr. exact Hr.
Qed.

Lemma normalize_empty (pred : Arr3 f64) :
  flatten3 pred = [] -> normalize_prediction pred = None.
Proof.
  intros H. unfold normalize_prediction, arr_min.
  rewrite sanitize_nan_to_num, flatten3_map3, (axis_fix_empty pred H). reflexivity.
Qed.

(** A result whose prediction list is empty, or whose first prediction
    has no element, makes the handler raise an uncaught error (FastAPI's
    500 [Internal Server Error]) instead of the [no images or prediction]
    [HTTPException]. *)
Theorem empty_prediction_uncaught_error : forall r s,
  (prediction r = Some [] \/
   exists pred preds, prediction r = Some (pred :: preds) /\ flatten3 pred = []) ->
  exists m, select_output r s = (inl (PyException m), s).
Proof.
  intros [pr imgs] s Hr. simpl in Hr. unfold select_output; unfold_monad; simpl.
  destruct Hr as [-> | [pred [preds [-> He]]]].
  - eexists; reflexivity.
  - rewrite (normalize_empty pred He). eexists; reflexivity.
Qed.

Definition empty_result : PipeResult :=
  {| prediction := Some [[[]; []; []]]; images := Some [black_pixel] |}.

Lemma empty_prediction_uncaught_error_witness :
  (prediction empty_result = Some [] \/
   exists pred preds, prediction empty_result = Some (pred :: preds) /\ flatten3 pred = []) /\
  exists m, select_output empty_result empty_state = (inl (PyException m), empty_state).
Proof.
  assert (H : prediction empty_result = Some [] \/
              exists pred preds, prediction empty_result = Some (pred :: preds) /\
                                 flatten3 pred = []).
  { right. exists [[]; []; []], []. split; reflexivity. }
  split; [exact H | exact (empty_prediction_uncaught_error empty_result empty_state H)].
Defined.
